(** * Amfora display package: tabs, the bottom bar command line and the
      global key handler ([display/display.go]).

    The development embeds the Go code of [display.go] in Gallina.  Go
    strings are byte strings and are modelled by [string]; Go's [int] is
    modelled by [Z] (no arithmetic of the file can leave the 64-bit
    range); the package-level variables [tabs], [curTab] and
    [bottomBar] become fields of one state record threaded through a
    state-and-panic monad; calls into collaborators (cache, cview
    application, fetch goroutines) are recorded in an event log. *)

From Stdlib Require Import ZArith String Ascii List Bool Lia.
From stdpp Require Import base option list strings.
Import ListNotations.

Local Open Scope string_scope.
Local Open Scope Z_scope.
Local Open Scope list_scope.

(** ** Bytes and byte strings *)

Definition byte_val (c : ascii) : Z := Z.of_N (N_of_ascii c).

Definition byte_in (lo hi c : ascii) : bool :=
  (byte_val lo <=? byte_val c) && (byte_val c <=? byte_val hi).

Definition is_digit (c : ascii) : bool := byte_in "0" "9" c.
Definition is_lower (c : ascii) : bool := byte_in "a" "z" c.
Definition is_upper (c : ascii) : bool := byte_in "A" "Z" c.
Definition is_alnum (c : ascii) : bool := is_lower c || is_upper c || is_digit c.

Definition byte_eqb (a b : ascii) : bool := Ascii.eqb a b.

Fixpoint byte_mem (c : ascii) (set : string) : bool :=
  match set with
  | EmptyString => false
  | String d set' => byte_eqb c d || byte_mem c set'
  end.

Definition bytes (s : string) : list ascii := list_ascii_of_string s.
Definition of_bytes (l : list ascii) : string := string_of_list_ascii l.

Definition len (s : string) : Z := Z.of_nat (String.length s).

(** [s[i:]] and [s[:i]] for an index inside the string. *)
Fixpoint string_drop (n : nat) (s : string) : string :=
  match n, s with
  | O, _ => s
  | S n', String _ s' => string_drop n' s'
  | S _, EmptyString => EmptyString
  end.

Fixpoint string_take (n : nat) (s : string) : string :=
  match n, s with
  | O, _ => EmptyString
  | S n', String c s' => String c (string_take n' s')
  | S _, EmptyString => EmptyString
  end.

Definition slice_from (s : string) (i : Z) : string := string_drop (Z.to_nat i) s.
Definition slice_to (s : string) (i : Z) : string := string_take (Z.to_nat i) s.

Definition string_rev (s : string) : string := of_bytes (rev (bytes s)).

(** ** Package [strings] *)

Fixpoint strings_HasPrefix (s prefix : string) : bool :=
  match prefix, s with
  | EmptyString, _ => true
  | String p prefix', String c s' => byte_eqb c p && strings_HasPrefix s' prefix'
  | String _ _, EmptyString => false
  end.

Definition strings_HasSuffix (s suffix : string) : bool :=
  strings_HasPrefix (string_rev s) (string_rev suffix).

(** [strings.Index]: position of the first occurrence, [-1] if there is none. *)
Fixpoint strings_Index (s substr : string) : Z :=
  if strings_HasPrefix s substr then 0
  else match s with
       | EmptyString => -1
       | String _ s' =>
           let i := strings_Index s' substr in
           if i <? 0 then -1 else i + 1
       end.

Definition strings_Contains (s substr : string) : bool :=
  0 <=? strings_Index s substr.

(** [strings.LastIndex]: position of the last occurrence, [-1] if there is none. *)
Fixpoint strings_LastIndex (s substr : string) : Z :=
  match s with
  | EmptyString => if strings_HasPrefix s substr then 0 else -1
  | String _ s' =>
      let i := strings_LastIndex s' substr in
      if 0 <=? i then i + 1
      else if strings_HasPrefix s substr then 0 else -1
  end.

(** [strings.Count] for a one-byte separator. *)
Fixpoint strings_CountByte (s : string) (c : ascii) : Z :=
  match s with
  | EmptyString => 0
  | String d s' => (if byte_eqb c d then 1 else 0) + strings_CountByte s' c
  end.

Definition lower_byte (c : ascii) : ascii :=
  if is_upper c then ascii_of_N (N_of_ascii c + 32) else c.

(** [strings.ToLower], on the ASCII strings it is applied to (URL schemes). *)
Fixpoint strings_ToLower (s : string) : string :=
  match s with
  | EmptyString => EmptyString
  | String c s' => String (lower_byte c) (strings_ToLower s')
  end.

(** White space in the sense of [unicode.IsSpace], as UTF-8 byte sequences:
    the ASCII ones, U+0085, U+00A0, U+1680, U+2000..U+200A, U+2028, U+2029,
    U+202F, U+205F and U+3000. *)
Definition mkbyte (n : N) : ascii := ascii_of_N n.

Definition space_encodings : list string :=
  map of_bytes
    ([ [mkbyte 9]; [mkbyte 10]; [mkbyte 11]; [mkbyte 12]; [mkbyte 13]; [mkbyte 32];
       [mkbyte 194; mkbyte 133]; [mkbyte 194; mkbyte 160]; [mkbyte 225; mkbyte 154; mkbyte 128] ]
     ++ map (fun k => [mkbyte 226; mkbyte 128; mkbyte (128 + k)])
            [0; 1; 2; 3; 4; 5; 6; 7; 8; 9; 10]%N
     ++ [ [mkbyte 226; mkbyte 128; mkbyte 168]; [mkbyte 226; mkbyte 128; mkbyte 169]; [mkbyte 226; mkbyte 128; mkbyte 175];
          [mkbyte 226; mkbyte 129; mkbyte 159]; [mkbyte 227; mkbyte 128; mkbyte 128] ]).

(** Length of the white-space rune [s] starts with, [0] if it starts with none. *)
Definition leading_space (s : string) : nat :=
  match List.filter (fun e => strings_HasPrefix s e) space_encodings with
  | e :: _ => String.length e
  | [] => O
  end.

Fixpoint trim_left (fuel : nat) (s : string) : string :=
  match fuel with
  | O => s
  | S fuel' =>
      match leading_space s with
      | O => s
      | n => trim_left fuel' (string_drop n s)
      end
  end.

Definition space_encodings_rev : list string := map string_rev space_encodings.

(** Trimming on the right works on the reversed string [r]. *)
Fixpoint trim_right_rev (fuel : nat) (r : string) : string :=
  match fuel with
  | O => r
  | S fuel' =>
      match List.filter (fun e => strings_HasPrefix r e) space_encodings_rev with
      | e :: _ => trim_right_rev fuel' (string_drop (String.length e) r)
      | [] => r
      end
  end.

(** [strings.TrimSpace]: all leading and trailing white-space runes removed. *)
Definition strings_TrimSpace (s : string) : string :=
  let l := trim_left (String.length s) s in
  string_rev (trim_right_rev (String.length l) (string_rev l)).

(** ** Package [strconv] *)

Fixpoint digits_value (acc : Z) (s : string) : option Z :=
  match s with
  | EmptyString => Some acc
  | String c s' =>
      if is_digit c then digits_value (acc * 10 + (byte_val c - 48)) s'
      else None
  end.

Definition int_min : Z := - 2 ^ 63.
Definition int_max : Z := 2 ^ 63 - 1.

(** [strconv.Atoi]: an optional sign and at least one decimal digit, the value
    inside the range of [int]; [None] stands for a non-nil error. *)
Definition strconv_Atoi (s : string) : option Z :=
  match s with
  | EmptyString => None
  | String c rest =>
      let neg := byte_eqb c "-" in
      let ds := if neg || byte_eqb c "+" then rest else s in
      match ds with
      | EmptyString => None
      | _ =>
          match digits_value 0 ds with
          | None => None
          | Some n =>
              let v := if neg then - n else n in
              if (int_min <=? v) && (v <=? int_max) then Some v else None
          end
      end
  end.

(** ** Package [path] *)

(** The output buffer of [path.Clean] is kept reversed: its head is the byte
    written last, its length is [out.w]. *)
Fixpoint clean_unwind (c : ascii) (out : list ascii) (dotdot : nat) : list ascii :=
  if (dotdot <? length out)%nat && negb (byte_eqb c "/") then
    match out with
    | c' :: out' => clean_unwind c' out' dotdot
    | [] => []
    end
  else out.

Fixpoint clean_copy (r : list ascii) (out : list ascii) : list ascii * list ascii :=
  match r with
  | [] => ([], out)
  | c :: r' => if byte_eqb c "/" then (r, out) else clean_copy r' (c :: out)
  end.

Definition starts_elem (r : list ascii) : bool :=
  match r with
  | [] => true
  | c :: _ => byte_eqb c "/"
  end.

Fixpoint clean_loop (fuel : nat) (rooted : bool) (r out : list ascii) (dotdot : nat)
  : list ascii :=
  match fuel with
  | O => out
  | S fuel' =>
      match r with
      | [] => out
      | c :: r1 =>
          if byte_eqb c "/" then
            clean_loop fuel' rooted r1 out dotdot
          else if byte_eqb c "." && starts_elem r1 then
            clean_loop fuel' rooted r1 out dotdot
          else if byte_eqb c "." &&
                  match r1 with
                  | d :: r2 => byte_eqb d "." && starts_elem r2
                  | [] => false
                  end then
            let r2 := tl r1 in
            if (dotdot <? length out)%nat then
              match out with
              | c' :: out' => clean_loop fuel' rooted r2 (clean_unwind c' out' dotdot) dotdot
              | [] => clean_loop fuel' rooted r2 out dotdot
              end
            else if negb rooted then
              let out1 := if (0 <? length out)%nat then "/"%char :: out else out in
              let out2 := "."%char :: "."%char :: out1 in
              clean_loop fuel' rooted r2 out2 (length out2)
            else clean_loop fuel' rooted r2 out dotdot
          else
            let out1 :=
              if (rooted && negb (length out =? 1)%nat) || (negb rooted && negb (length out =? 0)%nat)
              then "/"%char :: out else out in
            let '(r', out2) := clean_copy r out1 in
            clean_loop fuel' rooted r' out2 dotdot
      end
  end.

(** [path.Clean]. *)
Definition path_Clean (p : string) : string :=
  match p with
  | EmptyString => "."
  | String c _ =>
      let rooted := byte_eqb c "/" in
      let r := bytes p in
      let out :=
        if rooted then clean_loop (String.length p) true (tl r) ["/"%char] 1
        else clean_loop (String.length p) false r [] 0 in
      match out with
      | [] => "."
      | _ => of_bytes (rev out)
      end
  end.

Example Clean_examples :
  map path_Clean ["/test/foo//.."; "/test/.."; "/.."; ""; "a/../../b"; "/a/./b/../c/"; "abc//def"; "../.."; "/test/foo/../.."]
  = ["/test"; "/"; "/"; "."; "../b"; "/a/c"; "abc/def"; "../.."; "/"].
Proof. vm_compute. reflexivity. Qed.

Example Atoi_examples :
  map strconv_Atoi ["12"; "+5"; "-3"; ""; "-"; "1 2"; "new:3"; "9223372036854775807"; "9223372036854775808"; "0"]
  = [Some 12; Some 5; Some (-3); None; None; None; None; Some 9223372036854775807; None; Some 0].
Proof. vm_compute. reflexivity. Qed.

Example TrimSpace_examples :
  map strings_TrimSpace ["  a b  "; "   "; ""; ".."]
  = ["a b"; ""; ""; ".."].
Proof. vm_compute. reflexivity. Qed.

(** ** Package [net/url] (after Go 1.14) *)

Inductive encoding : Type :=
| encodePath | encodePathSegment | encodeHost | encodeZone
| encodeUserPassword | encodeQueryComponent | encodeFragment.

Definition encoding_eqb (m n : encoding) : bool :=
  match m, n with
  | encodePath, encodePath | encodePathSegment, encodePathSegment
  | encodeHost, encodeHost | encodeZone, encodeZone
  | encodeUserPassword, encodeUserPassword
  | encodeQueryComponent, encodeQueryComponent
  | encodeFragment, encodeFragment => true
  | _, _ => false
  end.

Record Userinfo : Type := mkUserinfo {
  username : string;
  password : string;
  passwordSet : bool
}.

Record url_URL : Type := mkURL {
  Scheme : string;
  Opaque : string;
  User : option Userinfo;
  Host : string;
  Path : string;
  RawPath : string;
  ForceQuery : bool;
  RawQuery : string;
  Fragment : string
}.

Definition empty_URL : url_URL := mkURL "" "" None "" "" "" false "" "".

Definition set_Scheme (v : string) (u : url_URL) : url_URL :=
  mkURL v (Opaque u) (User u) (Host u) (Path u) (RawPath u) (ForceQuery u) (RawQuery u) (Fragment u).
Definition set_Opaque (v : string) (u : url_URL) : url_URL :=
  mkURL (Scheme u) v (User u) (Host u) (Path u) (RawPath u) (ForceQuery u) (RawQuery u) (Fragment u).
Definition set_User (v : option Userinfo) (u : url_URL) : url_URL :=
  mkURL (Scheme u) (Opaque u) v (Host u) (Path u) (RawPath u) (ForceQuery u) (RawQuery u) (Fragment u).
Definition set_Host (v : string) (u : url_URL) : url_URL :=
  mkURL (Scheme u) (Opaque u) (User u) v (Path u) (RawPath u) (ForceQuery u) (RawQuery u) (Fragment u).
Definition set_Path (v : string) (u : url_URL) : url_URL :=
  mkURL (Scheme u) (Opaque u) (User u) (Host u) v (RawPath u) (ForceQuery u) (RawQuery u) (Fragment u).
Definition set_RawPath (v : string) (u : url_URL) : url_URL :=
  mkURL (Scheme u) (Opaque u) (User u) (Host u) (Path u) v (ForceQuery u) (RawQuery u) (Fragment u).
Definition set_ForceQuery (v : bool) (u : url_URL) : url_URL :=
  mkURL (Scheme u) (Opaque u) (User u) (Host u) (Path u) (RawPath u) v (RawQuery u) (Fragment u).
Definition set_RawQuery (v : string) (u : url_URL) : url_URL :=
  mkURL (Scheme u) (Opaque u) (User u) (Host u) (Path u) (RawPath u) (ForceQuery u) v (Fragment u).
Definition set_Fragment (v : string) (u : url_URL) : url_URL :=
  mkURL (Scheme u) (Opaque u) (User u) (Host u) (Path u) (RawPath u) (ForceQuery u) (RawQuery u) v.

Definition quote_byte : ascii := mkbyte 34.

Definition ishex (c : ascii) : bool :=
  is_digit c || byte_in "a" "f" c || byte_in "A" "F" c.

Definition unhex (c : ascii) : Z :=
  if is_digit c then byte_val c - 48
  else if byte_in "a" "f" c then byte_val c - 97 + 10
  else if byte_in "A" "F" c then byte_val c - 65 + 10
  else 0.

Definition byte_of_Z (z : Z) : ascii := ascii_of_N (Z.to_N z).

(** [shouldEscape]: whether byte [c] must be escaped in the part of a URL
    that [mode] stands for. *)
Definition shouldEscape (c : ascii) (mode : encoding) : bool :=
  if is_alnum c then false
  else if (encoding_eqb mode encodeHost || encoding_eqb mode encodeZone)
          && (byte_mem c "!$&'()*+,;=:[]<>" || byte_eqb c quote_byte) then false
  else if byte_mem c "-_.~" then false
  else if byte_mem c "$&+,/:;=?@" then
    match mode with
    | encodePath => byte_eqb c "?"
    | encodePathSegment => byte_mem c "/;,?"
    | encodeUserPassword => byte_mem c "@/?:"
    | encodeQueryComponent => true
    | encodeFragment => false
    | encodeHost | encodeZone => true
    end
  else if encoding_eqb mode encodeFragment && byte_mem c "!()*" then false
  else true.

Definition is_percent25 (h1 h2 : ascii) : bool := byte_eqb h1 "2" && byte_eqb h2 "5".

(** First pass of [unescape]: the percent signs are well-formed and the
    bytes are allowed in [mode]. *)
Fixpoint unescape_check (s : string) (mode : encoding) : bool :=
  match s with
  | EmptyString => true
  | String c s1 =>
      if byte_eqb c "%" then
        match s1 with
        | String h1 (String h2 s3) =>
            if negb (ishex h1 && ishex h2) then false
            else if encoding_eqb mode encodeHost && (unhex h1 <? 8) && negb (is_percent25 h1 h2)
            then false
            else if encoding_eqb mode encodeZone
                    && negb (is_percent25 h1 h2)
                    && negb (byte_eqb (byte_of_Z (unhex h1 * 16 + unhex h2)) " ")
                    && shouldEscape (byte_of_Z (unhex h1 * 16 + unhex h2)) encodeHost
            then false
            else unescape_check s3 mode
        | _ => false
        end
      else if byte_eqb c "+" then unescape_check s1 mode
      else if (encoding_eqb mode encodeHost || encoding_eqb mode encodeZone)
              && (byte_val c <? 128) && shouldEscape c encodeHost
      then false
      else unescape_check s1 mode
  end.

(** Second pass of [unescape], on a string that passed the first. *)
Fixpoint unescape_build (s : string) (mode : encoding) : string :=
  match s with
  | EmptyString => EmptyString
  | String c s1 =>
      if byte_eqb c "%" then
        match s1 with
        | String h1 (String h2 s3) =>
            String (byte_of_Z (unhex h1 * 16 + unhex h2)) (unescape_build s3 mode)
        | _ => EmptyString
        end
      else if byte_eqb c "+" && encoding_eqb mode encodeQueryComponent then
        String " " (unescape_build s1 mode)
      else String c (unescape_build s1 mode)
  end.

(** [unescape]; [None] stands for a non-nil error. *)
Definition unescape (s : string) (mode : encoding) : option string :=
  if unescape_check s mode then Some (unescape_build s mode) else None.

Definition upperhex (z : Z) : ascii :=
  if z <? 10 then byte_of_Z (48 + z) else byte_of_Z (65 + z - 10).

(** [escape]. *)
Fixpoint escape (s : string) (mode : encoding) : string :=
  match s with
  | EmptyString => EmptyString
  | String c s' =>
      if byte_eqb c " " && encoding_eqb mode encodeQueryComponent then
        String "+" (escape s' mode)
      else if shouldEscape c mode then
        String "%" (String (upperhex (Z.shiftr (byte_val c) 4))
                      (String (upperhex (Z.land (byte_val c) 15)) (escape s' mode)))
      else String c (escape s' mode)
  end.

Example escape_examples :
  (escape "/a b/c?d" encodePath, unescape "/a%20b/%41" encodePath, unescape "%zz" encodePath,
   unescape "a%2" encodePath, unescape "exa mple.org" encodeHost, unescape "a+b" encodeQueryComponent)
  = ("/a%20b/c%3Fd", Some "/a b/A", None, None, None, Some "a b").
Proof. vm_compute. reflexivity. Qed.

Definition stringContainsCTLByte (s : string) : bool :=
  existsb (fun c => (byte_val c <? 32) || (byte_val c =? 127)) (bytes s).

(** Result of [getscheme]: the scheme and the rest, or an error. *)
Fixpoint getscheme_from (i : nat) (rest rawurl : string) : option (string * string) :=
  match rest with
  | EmptyString => Some ("", rawurl)
  | String c rest' =>
      if is_lower c || is_upper c then getscheme_from (S i) rest' rawurl
      else if is_digit c || byte_mem c "+-." then
        match i with
        | O => Some ("", rawurl)
        | _ => getscheme_from (S i) rest' rawurl
        end
      else if byte_eqb c ":" then
        match i with
        | O => None
        | _ => Some (string_take i rawurl, rest')
        end
      else Some ("", rawurl)
  end.

Definition getscheme (rawurl : string) : option (string * string) :=
  getscheme_from O rawurl rawurl.

(** [split(s, sep, cutc)]: cut [s] at the first [sep], which is dropped from
    the second half when [cutc] holds. *)
Definition split (s sep : string) (cutc : bool) : string * string :=
  let i := strings_Index s sep in
  if i <? 0 then (s, "")
  else if cutc then (slice_to s i, slice_from s (i + len sep))
  else (slice_to s i, slice_from s i).

Definition validOptionalPort (port : string) : bool :=
  match port with
  | EmptyString => true
  | String c digits => byte_eqb c ":" && forallb is_digit (bytes digits)
  end.

Definition validUserinfo (s : string) : bool :=
  forallb (fun r => is_alnum r || byte_mem r "-._:~!$&'()*+,;=%@") (bytes s).

Definition slice (s : string) (i j : Z) : string := slice_to (slice_from s i) (j - i).

(** [parseHost]. *)
Definition parseHost (host : string) : option string :=
  if strings_HasPrefix host "[" then
    let i := strings_LastIndex host "]" in
    if i <? 0 then None
    else if negb (validOptionalPort (slice_from host (i + 1))) then None
    else
      let zone := strings_Index (slice_to host i) "%25" in
      if 0 <=? zone then
        match unescape (slice_to host zone) encodeHost with
        | None => None
        | Some host1 =>
            match unescape (slice host zone i) encodeZone with
            | None => None
            | Some host2 =>
                match unescape (slice_from host i) encodeHost with
                | None => None
                | Some host3 => Some (host1 +:+ host2 +:+ host3)
                end
            end
        end
      else unescape host encodeHost
  else
    let i := strings_LastIndex host ":" in
    if (0 <=? i) && negb (validOptionalPort (slice_from host i)) then None
    else unescape host encodeHost.

(** [parseAuthority]: the user information and the host. *)
Definition parseAuthority (authority : string) : option (option Userinfo * string) :=
  let i := strings_LastIndex authority "@" in
  match parseHost (if i <? 0 then authority else slice_from authority (i + 1)) with
  | None => None
  | Some host =>
      if i <? 0 then Some (None, host)
      else
        let userinfo := slice_to authority i in
        if negb (validUserinfo userinfo) then None
        else if negb (strings_Contains userinfo ":") then
          match unescape userinfo encodeUserPassword with
          | None => None
          | Some name => Some (Some (mkUserinfo name "" false), host)
          end
        else
          let '(name, pass) := split userinfo ":" true in
          match unescape name encodeUserPassword with
          | None => None
          | Some name' =>
              match unescape pass encodeUserPassword with
              | None => None
              | Some pass' => Some (Some (mkUserinfo name' pass' true), host)
              end
          end
  end.

(** [url_URL.setPath]; [None] stands for a non-nil error, the URL being left
    as it was. *)
Definition setPath (u : url_URL) (p : string) : option url_URL :=
  match unescape p encodePath with
  | None => None
  | Some path =>
      let escp := escape path encodePath in
      Some (set_RawPath (if String.eqb p escp then "" else p) (set_Path path u))
  end.

(** [parse(rawurl, viaRequest)] at [viaRequest = false]. *)
Definition parse (rawurl : string) : option url_URL :=
  if stringContainsCTLByte rawurl then None
  else if String.eqb rawurl "*" then Some (set_Path "*" empty_URL)
  else
    match getscheme rawurl with
    | None => None
    | Some (scheme, rest) =>
        let url := set_Scheme (strings_ToLower scheme) empty_URL in
        let '(url, rest) :=
          if strings_HasSuffix rest "?" && (strings_CountByte rest "?" =? 1)
          then (set_ForceQuery true url, slice_to rest (len rest - 1))
          else let '(rest', q) := split rest "?" true in (set_RawQuery q url, rest') in
        let rootless := negb (strings_HasPrefix rest "/") in
        if rootless && negb (String.eqb (Scheme url) "") then
          Some (set_Opaque rest url)
        else
          let colon := strings_Index rest ":" in
          let slash := strings_Index rest "/" in
          if rootless && (0 <=? colon) && ((slash <? 0) || (colon <? slash)) then None
          else
            let authority_step :=
              if (negb (String.eqb (Scheme url) "") || negb (strings_HasPrefix rest "///"))
                 && strings_HasPrefix rest "//"
              then
                let '(authority, rest') := split (slice_from rest 2) "/" false in
                match parseAuthority authority with
                | None => None
                | Some (user, host) => Some (set_Host host (set_User user url), rest')
                end
              else Some (url, rest) in
            match authority_step with
            | None => None
            | Some (url, rest) => setPath url rest
            end
    end.

(** [url.Parse]; [None] is Go's [(nil, err)]. *)
Definition url_Parse (rawurl : string) : option url_URL :=
  let '(u, frag) := split rawurl "#" true in
  match parse u with
  | None => None
  | Some url =>
      if String.eqb frag "" then Some url
      else match unescape frag encodeFragment with
           | None => None
           | Some f => Some (set_Fragment f url)
           end
  end.

Definition validEncodedPath (s : string) : bool :=
  forallb (fun c => byte_mem c "!$&'()*+,;=:@[]%" || negb (shouldEscape c encodePath))
          (bytes s).

(** [url_URL.EscapedPath]. *)
Definition EscapedPath (u : url_URL) : string :=
  if negb (String.eqb (RawPath u) "") && validEncodedPath (RawPath u)
     && match unescape (RawPath u) encodePath with
        | Some p => String.eqb p (Path u)
        | None => false
        end
  then RawPath u
  else if String.eqb (Path u) "*" then "*"
  else escape (Path u) encodePath.

Definition Userinfo_String (ui : Userinfo) : string :=
  escape (username ui) encodeUserPassword
  +:+ (if passwordSet ui then ":" +:+ escape (password ui) encodeUserPassword else "").

Definition is_some {A} (o : option A) : bool :=
  match o with Some _ => true | None => false end.

Definition nonempty (s : string) : bool := negb (String.eqb s "").

(** [url_URL.String]. *)
Definition URL_String (u : url_URL) : string :=
  let buf := if nonempty (Scheme u) then Scheme u +:+ ":" else "" in
  let buf :=
    if nonempty (Opaque u) then buf +:+ Opaque u
    else
      let buf :=
        if nonempty (Scheme u) || nonempty (Host u) || is_some (User u) then
          let buf :=
            if nonempty (Host u) || nonempty (Path u) || is_some (User u)
            then buf +:+ "//" else buf in
          let buf :=
            match User u with
            | Some ui => buf +:+ Userinfo_String ui +:+ "@"
            | None => buf
            end in
          if nonempty (Host u) then buf +:+ escape (Host u) encodeHost else buf
        else buf in
      let path := EscapedPath u in
      let buf :=
        if nonempty path && negb (strings_HasPrefix path "/") && nonempty (Host u)
        then buf +:+ "/" else buf in
      let buf :=
        if String.eqb buf "" then
          let i := strings_Index path ":" in
          if (0 <=? i) && (strings_Index (slice_to path i) "/" <? 0)
          then buf +:+ "./" else buf
        else buf in
      buf +:+ path in
  let buf :=
    if ForceQuery u || nonempty (RawQuery u) then buf +:+ "?" +:+ RawQuery u else buf in
  if nonempty (Fragment u) then buf +:+ "#" +:+ escape (Fragment u) encodeFragment else buf.

(** [strings.Split(s, "/")]. *)
Fixpoint split_slash (s : string) : list string :=
  match s with
  | EmptyString => [EmptyString]
  | String c s' =>
      if byte_eqb c "/" then EmptyString :: split_slash s'
      else match split_slash s' with
           | e :: es => String c e :: es
           | [] => [String c EmptyString]
           end
  end.

(** [strings.Join(elems, "/")]. *)
Fixpoint join_slash (elems : list string) : string :=
  match elems with
  | [] => ""
  | [e] => e
  | e :: es => e +:+ "/" +:+ join_slash es
  end.

Definition strings_TrimPrefix (s prefix : string) : string :=
  if strings_HasPrefix s prefix then string_drop (String.length prefix) s else s.

(** The loop of [resolvePath]: [dst] is kept reversed. *)
Fixpoint resolve_elems (src dst : list string) : list string :=
  match src with
  | [] => dst
  | elem :: src' =>
      if String.eqb elem "." then resolve_elems src' dst
      else if String.eqb elem ".." then resolve_elems src' (tl dst)
      else resolve_elems src' (elem :: dst)
  end.

(** [resolvePath]. *)
Definition resolvePath (base ref : string) : string :=
  let full :=
    if String.eqb ref "" then base
    else if negb (strings_HasPrefix ref "/") then
      slice_to base (strings_LastIndex base "/" + 1) +:+ ref
    else ref in
  if String.eqb full "" then ""
  else
    let src := split_slash full in
    let dst := resolve_elems src [] in
    let last := List.last src "" in
    let dst := if String.eqb last "." || String.eqb last ".." then "" :: dst else dst in
    "/" +:+ strings_TrimPrefix (join_slash (rev dst)) "/".

Definition setPath_ignore (u : url_URL) (p : string) : url_URL :=
  match setPath u p with Some u' => u' | None => u end.

(** [url_URL.ResolveReference]: the receiver [u] may be nil ([None]), and is
    dereferenced only on some paths; [None] as result is the nil-pointer
    panic. *)
Definition ResolveReference (u : option url_URL) (ref : url_URL) : option url_URL :=
  let scheme_step :=
    if String.eqb (Scheme ref) "" then
      match u with
      | Some b => Some (set_Scheme (Scheme b) ref)
      | None => None
      end
    else Some ref in
  match scheme_step with
  | None => None
  | Some url =>
      if nonempty (Scheme ref) || nonempty (Host ref) || is_some (User ref) then
        Some (setPath_ignore url (resolvePath (EscapedPath ref) ""))
      else if nonempty (Opaque ref) then
        Some (set_Path "" (set_Host "" (set_User None url)))
      else
        match u with
        | None => None
        | Some b =>
            let url :=
              if String.eqb (Path ref) "" && String.eqb (RawQuery ref) "" then
                let url := set_RawQuery (RawQuery b) url in
                if String.eqb (Fragment ref) "" then set_Fragment (Fragment b) url else url
              else url in
            let url := set_User (User b) (set_Host (Host b) url) in
            Some (setPath_ignore url (resolvePath (EscapedPath b) (EscapedPath ref)))
        end
  end.

Definition show_url (o : option url_URL) : option string := option_map URL_String o.

Example Parse_examples :
  map (fun s => show_url (url_Parse s))
      ["gemini://example.org/test/foo/?q=1#top"; ":foo"; "%zz"; "about:newtab";
       "gemini://user:pw@Host.org:1965"; "a b/c"; "//host/p"; "x:y:z"; "a:b/c"; "/p?"; "1a:b"]
  = [Some "gemini://example.org/test/foo/?q=1#top"; None; None; Some "about:newtab";
     Some "gemini://user:pw@Host.org:1965"; Some "a%20b/c"; Some "//host/p"; Some "x:y:z";
     Some "a:b/c"; Some "/p?"; None].
Proof. vm_compute. reflexivity. Qed.

Example Resolve_examples :
  map (fun '(base, ref) =>
         match url_Parse ref with
         | Some r => show_url (ResolveReference (url_Parse base) r)
         | None => None
         end)
      [("gemini://example.org/a/b", "c"); ("gemini://example.org/a/b", "../x/./y");
       ("gemini://example.org/a/b/", "/z"); ("gemini://example.org/a", "gopher://h/q");
       ("gemini://example.org/a?b", "//other/p"); (":bad", "gemini://example.org/");
       (":bad", "rel"); ("gemini://example.org/a/b?q", "")]
  = [Some "gemini://example.org/a/c"; Some "gemini://example.org/x/y";
     Some "gemini://example.org/z"; Some "gopher://h/q"; Some "gemini://other/p";
     Some "gemini://example.org/"; None; Some "gemini://example.org/a/b?q"].
Proof. vm_compute. reflexivity. Qed.

(** ** Pages, tabs and the state of the package *)

(** Modelled from the spec: package [structs] is not among the sources; the
    fields are those [display.go] reads and writes (Raw, Content, Links,
    Url, Width, Mediatype, Mode, Selected). *)
Inductive Mediatype : Type := TextGemini | TextPlain.
Inductive PageMode : Type := ModeOff | ModeLinkSelect.

Record Page : Type := mkPage {
  Raw : string;
  Content : string;
  Links : list string;
  Url : string;
  Width : Z;
  Mediatype_of : Mediatype;
  Mode : PageMode;
  Selected : string
}.

(** Modelled from the spec: [tab.go] and [history.go] are not among the
    sources.  A tab owns its page, its history (visited URLs and a cursor,
    [-1] when there is no entry to go back to), its loading mode and the
    bottom bar state saved for it. *)
Record History : Type := mkHistory {
  urls : list string;
  pos : Z
}.

Inductive tabMode : Type := tabModeDone | tabModeLoading.

Record tab : Type := mkTab {
  page : Page;
  history : History;
  mode : tabMode;
  barLabel : string;
  barText : string
}.

Definition set_page (p : Page) (t : tab) : tab :=
  mkTab p (history t) (mode t) (barLabel t) (barText t).
Definition set_history (h : History) (t : tab) : tab :=
  mkTab (page t) h (mode t) (barLabel t) (barText t).
Definition set_bar (l x : string) (t : tab) : tab :=
  mkTab (page t) (history t) (mode t) l x.

(** A [*tab] is an address in the heap of tab objects. *)
Abbreviation ptr := nat (only parsing).

(** [cview.InputField]: the label and the text of the bottom bar. *)
Record InputField : Type := mkInputField {
  label : string;
  text : string
}.

(** What [App.GetFocus()] returns, up to the type switch of the key handler. *)
Inductive Focus : Type :=
| OnView (t : ptr)
| OnInputField
| OnButton
| OnModal.

(** Goroutines started with [go]. *)
Inductive goroutine : Type :=
| goGoURL (t : ptr) (u : string)
| goReload (t : ptr) (parsed : option url_URL)
| goReformat (t : ptr)
| goAddBookmark.

(** Calls into the collaborators of the package. *)
Inductive event : Type :=
| SaveScroll (t : ptr)
| RestoreView (t : ptr)
| ClearHighlight (t : ptr)
| SetPageView (t : ptr)
| Reformat (t : ptr)
| RemovePage (u : string)
| RemoveFavicon (host : string)
| Fetch (t : ptr) (u : string)
| FollowLink (t : ptr) (prev next : string)
| ShowError (title msg : string)
| ShowInfo (msg : string)
| ShowBookmarks (t : ptr)
| ShowHelp
| HistBack (t : ptr)
| HistForward (t : ptr)
| PageUp (t : ptr)
| PageDown (t : ptr)
| SwitchToPage (i : Z)
| AddAndSwitchToPage (i : Z)
| RemoveTabPage (i : Z)
| PrintTabRow (i : Z)
| HighlightTabRow (i : Z)
| RewriteTabRow
| AppDraw
| AppStop
| Go (g : goroutine).

Record display : Type := mkDisplay {
  tabs : list ptr;
  curTab : Z;
  heap : list tab;
  bottomBar : InputField;
  focus : Focus;
  termW : Z;
  termH : Z;
  log : list event
}.

Definition set_tabs (v : list ptr) (d : display) : display :=
  mkDisplay v (curTab d) (heap d) (bottomBar d) (focus d) (termW d) (termH d) (log d).
Definition set_curTab (v : Z) (d : display) : display :=
  mkDisplay (tabs d) v (heap d) (bottomBar d) (focus d) (termW d) (termH d) (log d).
Definition set_heap (v : list tab) (d : display) : display :=
  mkDisplay (tabs d) (curTab d) v (bottomBar d) (focus d) (termW d) (termH d) (log d).
Definition set_bottomBar (v : InputField) (d : display) : display :=
  mkDisplay (tabs d) (curTab d) (heap d) v (focus d) (termW d) (termH d) (log d).
Definition set_focus (v : Focus) (d : display) : display :=
  mkDisplay (tabs d) (curTab d) (heap d) (bottomBar d) v (termW d) (termH d) (log d).
Definition set_term (w h : Z) (d : display) : display :=
  mkDisplay (tabs d) (curTab d) (heap d) (bottomBar d) (focus d) w h (log d).
Definition set_log (v : list event) (d : display) : display :=
  mkDisplay (tabs d) (curTab d) (heap d) (bottomBar d) (focus d) (termW d) (termH d) v.

(** ** The monad: state passing, with run-time panics *)

Inductive outcome (A : Type) : Type :=
| Done (a : A) (d : display)
| Panic.
Arguments Done {A} a d.
Arguments Panic {A}.

Definition M (A : Type) : Type := display -> outcome A.

Definition ret {A} (a : A) : M A := fun d => Done a d.

Definition bind {A B} (m : M A) (k : A -> M B) : M B :=
  fun d => match m d with
           | Done a d' => k a d'
           | Panic => Panic
           end.

Notation "x <- m ;; k" := (bind m (fun x => k))
  (at level 100, m at next level, right associativity).
Notation "m ;;; k" := (bind m (fun _ => k))
  (at level 100, right associativity).

Definition gets {A} (f : display -> A) : M A := fun d => Done (f d) d.
Definition modify (f : display -> display) : M unit := fun d => Done tt (f d).
Definition panic {A} : M A := fun _ => Panic.
Definition emit (e : event) : M unit := modify (fun d => set_log (log d ++ [e]) d).

(** Indexing a slice with an [int]: out of range panics. *)
Definition index {A} (l : list A) (i : Z) : option A :=
  if i <? 0 then None else l !! Z.to_nat i.

Definition lift {A} (o : option A) : M A :=
  match o with
  | Some a => ret a
  | None => panic
  end.

(** [tabs[i]]. *)
Definition tab_at (i : Z) : M ptr := ts <- gets tabs ;; lift (index ts i).

(** Reading and writing the tab object behind a pointer. *)
Definition load (p : ptr) : M tab := h <- gets heap ;; lift (h !! p).
Definition store (p : ptr) (t : tab) : M unit :=
  modify (fun d => set_heap (<[p := t]> (heap d)) d).

(** [NumTabs]. *)
Definition NumTabs : M Z := gets (fun d => Z.of_nat (length (tabs d))).

(** ** Methods of [tab] *)

(** Modelled from the spec: [tab.saveScroll] reads the scroll position of the
    tab's view and keeps it in the tab. *)
Definition saveScroll (t : ptr) : M unit := emit (SaveScroll t).

(** Modelled from the spec: [tab.saveBottomBar] keeps the label and text of
    the bottom bar in the tab. *)
Definition saveBottomBar (t : ptr) : M unit :=
  tb <- load t ;;
  bar <- gets bottomBar ;;
  store t (set_bar (label bar) (text bar) tb).

(** Modelled from the spec: [tab.applyBottomBar] shows the bar state saved in
    the tab. *)
Definition applyBottomBar (t : ptr) : M unit :=
  tb <- load t ;;
  modify (set_bottomBar (mkInputField (barLabel tb) (barText tb))).

(** Modelled from the spec: [tab.applyAll] restores the saved UI state of the
    tab: selection and scroll position of its view, and the bottom bar. *)
Definition applyAll (t : ptr) : M unit :=
  emit (RestoreView t) ;;;
  applyBottomBar t.

(** Modelled from the spec (section 4.1, append): entries after the cursor
    are dropped, the URL is appended and the cursor moves to it. *)
Definition History_append (u : string) (h : History) : History :=
  let kept := take (Z.to_nat (pos h + 1)) (urls h) in
  mkHistory (kept ++ [u]) (Z.of_nat (length kept)).

Definition addToHistory (t : ptr) (u : string) : M unit :=
  tb <- load t ;;
  store t (set_history (History_append u (history tb)) tb).

(** Modelled from the spec: [setPage] replaces the page of the tab and shows
    it in the tab's view. *)
Definition setPage (t : ptr) (p : Page) : M unit :=
  tb <- load t ;;
  store t (set_page p tb) ;;;
  emit (SetPageView t).

Definition SetLabel (l : string) : M unit :=
  modify (fun d => set_bottomBar (mkInputField l (text (bottomBar d))) d).
Definition SetText (x : string) : M unit :=
  modify (fun d => set_bottomBar (mkInputField (label (bottomBar d)) x) d).
Definition SetFocus (f : Focus) : M unit := modify (set_focus f).

(** ** Keys *)

Inductive Key : Type :=
| KeyEnter | KeyEsc | KeyTab | KeyBacktab | KeyLeft | KeyRight
| KeyCtrlR | KeyCtrlH | KeyCtrlB | KeyCtrlD | KeyCtrlS | KeyCtrlT
| KeyCtrlW | KeyCtrlQ | KeyCtrlC | KeyPgUp | KeyPgDn | KeyRune | KeyOther.

Definition ModAlt : Z := 4.

(** [tcell.EventKey]: the key, the rune (a code point) when the key is
    [KeyRune], and the modifier mask. *)
Record EventKey : Type := mkEventKey {
  ev_Key : Key;
  ev_Rune : Z;
  ev_Modifiers : Z
}.

(** Go's [string(r)] for a rune: the UTF-8 encoding of the code point,
    U+FFFD for what is not one. *)
Definition string_of_rune (r : Z) : string :=
  let cont (z : Z) := byte_of_Z (128 + Z.land z 63) in
  if (r <? 0) || (1114111 <? r) || ((55296 <=? r) && (r <=? 57343)) then
    of_bytes [mkbyte 239; mkbyte 191; mkbyte 189]
  else if r <? 128 then of_bytes [byte_of_Z r]
  else if r <? 2048 then of_bytes [byte_of_Z (192 + Z.shiftr r 6); cont r]
  else if r <? 65536 then
    of_bytes [byte_of_Z (224 + Z.shiftr r 12); cont (Z.shiftr r 6); cont r]
  else
    of_bytes [byte_of_Z (240 + Z.shiftr r 18); cont (Z.shiftr r 12);
              cont (Z.shiftr r 6); cont r].

Definition rune_of (c : ascii) : Z := byte_val c.

(** ** The functions of [display.go] *)

Section Display.

(** What the file takes from the rest of the repository and from the
    configuration. *)
Variable hasContent : tab -> bool.               (* tab.hasContent *)
Variable handleURL : tab -> string -> tab.       (* what handleURL leaves in the tab *)
Variable queryEscape : string -> string.         (* queryEscape *)
Variable search_url : string.                    (* viper.GetString("a-general.search") *)
Variable home_url : string.                      (* viper.GetString("a-general.home") *)
Variable newTabPage : Page.                      (* rendered once by Init *)
Variable makeNewTab : tab.                       (* the object makeNewTab allocates *)
Variable KeyToNum : Z -> option Z.               (* config.KeyToNum *)
Variable resolveRelLink : tab -> string -> string -> string + string.
Variable downloadPage : Page -> string + string. (* saved path, or the error *)

(** [tabs[curTab]]. *)
Definition cur_tab : M ptr := c <- gets curTab ;; tab_at c.

(** [Stop]. *)
Definition Stop : M unit := emit AppStop.

(** [URL]. *)
Definition URL (u : string) : M unit :=
  if String.eqb u "about:bookmarks" then
    t <- cur_tab ;;
    emit (ShowBookmarks t) ;;;
    t <- cur_tab ;;
    addToHistory t "about:bookmarks"
  else if String.eqb u "about:newtab" then
    t <- cur_tab ;;
    setPage t newTabPage
  else if strings_HasPrefix u "about:" then
    emit (ShowError "Error" "Not a valid 'about:' URL.")
  else
    t <- cur_tab ;;
    emit (Go (goGoURL t u)).

(** [NewTab]. *)
Definition NewTab : M unit :=
  c <- gets curTab ;;
  (if -1 <? c then
     t <- tab_at c ;;
     emit (ClearHighlight t) ;;;
     saveBottomBar t ;;;
     saveScroll t
   else ret tt) ;;;
  n <- NumTabs ;;
  modify (set_curTab n) ;;;
  p <- gets (fun d => length (heap d)) ;;
  modify (fun d => set_heap (heap d ++ [makeNewTab]) d) ;;;
  modify (fun d => set_tabs (tabs d ++ [p]) d) ;;;
  t <- cur_tab ;;
  setPage t newTabPage ;;;
  tb <- load t ;;
  store t (set_history (mkHistory (urls (history tb)) (-1)) tb) ;;;
  emit (AddAndSwitchToPage n) ;;;
  SetFocus (OnView t) ;;;
  emit (PrintTabRow n) ;;;
  emit (HighlightTabRow n) ;;;
  SetLabel "" ;;;
  SetText "" ;;;
  saveBottomBar t ;;;
  emit AppDraw.

(** [CloseTab]. *)
Definition CloseTab : M unit :=
  c <- gets curTab ;;
  n <- NumTabs ;;
  if negb (c =? n - 1) then ret tt
  else if n <=? 1 then Stop
  else
    modify (fun d => set_tabs (take (length (tabs d) - 1) (tabs d)) d) ;;;
    emit (RemoveTabPage c) ;;;
    n' <- NumTabs ;;
    modify (set_curTab (if c <=? 0 then n' - 1 else c - 1)) ;;;
    c' <- gets curTab ;;
    emit (SwitchToPage c') ;;;
    emit RewriteTabRow ;;;
    t <- tab_at c' ;;
    applyAll t ;;;
    SetFocus (OnView t) ;;;
    emit AppDraw.

(** [SwitchTab]. *)
Definition SwitchTab (tab : Z) : M unit :=
  n <- NumTabs ;;
  let tab := if tab <? 0 then 0 else tab in
  let tab := if n - 1 <? tab then n - 1 else tab in
  c <- gets curTab ;;
  (if -1 <? c then
     t <- tab_at c ;;
     saveBottomBar t ;;;
     saveScroll t
   else ret tt) ;;;
  (if n =? 0 then panic else modify (set_curTab (Z.rem tab n))) ;;;
  c' <- gets curTab ;;
  t <- tab_at c' ;;
  emit (Reformat t) ;;;
  emit (SwitchToPage c') ;;;
  emit (HighlightTabRow c') ;;;
  applyAll t ;;;
  SetFocus (OnView t) ;;;
  emit AppDraw.

(** [Reload]: the part that runs in the caller. *)
Definition Reload : M unit :=
  t <- cur_tab ;;
  tb <- load t ;;
  if negb (hasContent tb) then ret tt
  else emit (Go (goReload t (url_Parse (Url (page tb))))).


(** The function given to [SetAfterResizeFunc]: the goroutine is started
    for the tab that is current at the time of the resize. *)
Definition AfterResizeFunc (width height : Z) : M unit :=
  modify (set_term width height) ;;;
  t <- cur_tab ;;
  emit (Go (goReformat t)).

(** The closure [reset] of the bottom bar handler; [tab] is the index the
    handler captured. *)
Definition reset (tab : Z) : M unit :=
  SetLabel "" ;;;
  t <- tab_at tab ;;
  applyAll t ;;;
  t <- tab_at tab ;;
  SetFocus (OnView t).

(** The path one directory up: ["/test/foo/" -> "/test/foo//.." -> "/test"
    -> "/test/"], the double slash at the root being fixed. *)
Definition parent_path (p : string) : string :=
  let q := path_Clean (p +:+ "/..") +:+ "/" in
  if String.eqb q "//" then "/" else q.

(** Search or URL: the test on the text typed. *)
Definition is_search (query : string) : bool :=
  strings_Contains query " "
  || (negb (strings_Contains query "//") && negb (strings_Contains query ".")
      && negb (strings_HasPrefix query "about:")).

(** The last statements of the [KeyEnter] case: a link number, valid or not. *)
Definition link_number (tab i : Z) : M unit :=
  t <- tab_at tab ;;
  tb <- load t ;;
  if (i <=? Z.of_nat (length (Links (page tb)))) && (0 <? i) then
    l <- lift (index (Links (page tb)) (i - 1)) ;;
    emit (FollowLink t (Url (page tb)) l)
  else reset tab.

(** The function given to [bottomBar.SetDoneFunc]. *)
Definition DoneFunc (key : Key) : M unit :=
  tab <- gets curTab ;;
  t <- tab_at tab ;;
  saveScroll t ;;;
  match key with
  | KeyEnter =>
      query <- gets (fun d => text (bottomBar d)) ;;
      if String.eqb (strings_TrimSpace query) "" then reset tab
      else
        tb <- load t ;;
        if String.eqb query ".." && hasContent tb then
          match url_Parse (Url (page tb)) with
          | None => ret tt
          | Some parsed =>
              if String.eqb (Path parsed) "/" then reset tab
              else
                URL (URL_String
                       (set_RawQuery "" (set_Path (parent_path (Path parsed)) parsed)))
          end
        else
          match strconv_Atoi query with
          | Some i => link_number tab i
          | None =>
              if strings_HasPrefix query "new:" && (4 <? len query) then
                match strconv_Atoi (slice_from query 4) with
                | None => reset tab
                | Some i =>
                    if (i <=? Z.of_nat (length (Links (page tb)))) && (0 <? i) then
                      let oldTab := tab in
                      NewTab ;;;
                      o <- tab_at oldTab ;;
                      ob <- load o ;;
                      let prevParsed := url_Parse (Url (page ob)) in
                      l <- lift (index (Links (page ob)) (i - 1)) ;;
                      match url_Parse l with
                      | None =>
                          emit (ShowError "URL Error" "link URL could not be parsed") ;;;
                          reset tab
                      | Some nextParsed =>
                          r <- lift (ResolveReference prevParsed nextParsed) ;;
                          URL (URL_String r)
                      end
                    else link_number tab i
                end
              else if is_search query then
                let u := search_url +:+ "?" +:+ queryEscape query in
                emit (RemovePage u) ;;;
                URL u
              else
                emit (RemovePage query) ;;;
                URL query
          end
  | KeyEsc => reset tab
  | _ => ret tt
  end.

(** The number keys of the key handler: [1]-[9], and [0] for link 10.
    The result tells whether the key was used. *)
Definition number_key (r : Z) : M bool :=
  match strconv_Atoi (string_of_rune r) with
  | None => ret false
  | Some i =>
      let i := if i =? 0 then 10 else i in
      t <- cur_tab ;;
      tb <- load t ;;
      if (i <=? Z.of_nat (length (Links (page tb)))) && (0 <? i) then
        l <- lift (index (Links (page tb)) (i - 1)) ;;
        emit (FollowLink t (Url (page tb)) l) ;;;
        ret true
      else ret false
  end.

(** The keys that work only while the current tab is not loading.  The
    result tells whether the handler returned [nil] there. *)
Definition done_keys (ev : EventKey) : M bool :=
  t <- cur_tab ;;
  if (ev_Modifiers ev =? ModAlt)
     && match ev_Key ev with KeyLeft | KeyRight => true | _ => false end
  then
    match ev_Key ev with
    | KeyLeft => emit (HistBack t) ;;; ret true
    | _ => emit (HistForward t) ;;; ret true
    end
  else
    match ev_Key ev with
    | KeyCtrlR => Reload ;;; ret true
    | KeyCtrlH => URL home_url ;;; ret true
    | KeyCtrlB =>
        emit (ShowBookmarks t) ;;;
        addToHistory t "about:bookmarks" ;;;
        ret true
    | KeyCtrlD => emit (Go goAddBookmark) ;;; ret true
    | KeyPgUp => emit (PageUp t) ;;; ret true
    | KeyPgDn => emit (PageDown t) ;;; ret true
    | KeyCtrlS =>
        tb <- load t ;;
        (if hasContent tb then
           match downloadPage (page tb) with
           | inr err =>
               emit (ShowError "Download Error" ("Error saving page content: " +:+ err))
           | inl savePath =>
               emit (ShowInfo ("Page content saved to " +:+ savePath +:+ ". "))
           end
         else
           emit (ShowInfo "The current page has no content, so it couldn't be downloaded.")) ;;;
        ret true
    | KeyRune =>
        let s := string_of_rune (ev_Rune ev) in
        if String.eqb s " " then
          SetLabel "[::b]URL/Num./Search: [::-]" ;;;
          SetText "" ;;;
          SetFocus OnInputField ;;;
          ret true
        else if String.eqb s "R" then Reload ;;; ret true
        else if String.eqb s "b" then emit (HistBack t) ;;; ret true
        else if String.eqb s "f" then emit (HistForward t) ;;; ret true
        else if String.eqb s "u" then emit (PageUp t) ;;; ret true
        else if String.eqb s "d" then emit (PageDown t) ;;; ret true
        else number_key (ev_Rune ev)
    | _ => ret false
    end.

(** The keys that work while a tab is loading, too. *)
Definition loading_keys (ev : EventKey) : M (option EventKey) :=
  match ev_Key ev with
  | KeyCtrlT =>
      t <- cur_tab ;;
      tb <- load t ;;
      match Mode (page tb) with
      | ModeLinkSelect =>
          match resolveRelLink tb (Url (page tb)) (Selected (page tb)) with
          | inr err => emit (ShowError "URL Error" err) ;;; ret None
          | inl next => NewTab ;;; URL next ;;; ret None
          end
      | _ => NewTab ;;; ret None
      end
  | KeyCtrlW => CloseTab ;;; ret None
  | KeyCtrlQ => Stop ;;; ret None
  | KeyCtrlC => Stop ;;; ret None
  | KeyRune =>
      match KeyToNum (ev_Rune ev) with
      | Some num =>
          (if num =? 0 then n <- NumTabs ;; SwitchTab (n - 1)
           else SwitchTab (num - 1)) ;;;
          ret None
      | None =>
          let s := string_of_rune (ev_Rune ev) in
          if String.eqb s "q" then Stop ;;; ret None
          else if String.eqb s "?" then emit ShowHelp ;;; ret None
          else ret (Some ev)
      end
  | _ => ret (Some ev)
  end.

(** The function given to [App.SetInputCapture]: [None] is [nil], the key
    was used; [Some ev] passes the event on. *)
Definition InputCapture (ev : EventKey) : M (option EventKey) :=
  f <- gets focus ;;
  match f with
  | OnButton | OnInputField | OnModal => ret (Some ev)
  | OnView _ =>
      t <- cur_tab ;;
      tb <- load t ;;
      used <- (match mode tb with
               | tabModeDone => done_keys ev
               | tabModeLoading => ret false
               end) ;;
      if used then ret None else loading_keys ev
  end.

End Display.

(** ** Well-formed sessions *)

(** Every tab pointer of the slice points into the heap. *)
Definition valid_ptrs (d : display) : bool :=
  forallb (fun p => (p <? length (heap d))%nat) (tabs d).

(** [curTab] is an index of the slice. *)
Definition valid_cur (d : display) : bool :=
  (0 <=? curTab d) && (curTab d <? Z.of_nat (length (tabs d))).

(** A session with at least one tab: what [NewTab] establishes and the other
    functions keep. *)
Definition session (d : display) : Prop :=
  valid_ptrs d = true /\ valid_cur d = true.

(** ** A sample environment and sample sessions, to run the functions on *)

Definition sample_page (u : string) (links : list string) : Page :=
  mkPage "raw" "text" links u 80 TextGemini ModeOff "".

Definition sample_tab (u : string) (links : list string) : tab :=
  mkTab (sample_page u links) (mkHistory [u] 0) tabModeDone "" u.



Definition sample_queryEscape (q : string) : string := escape q encodePathSegment.
Definition sample_search : string := "gemini://gus.guru/search".
Definition sample_home : string := "gemini://gemini.circumlunar.space".

Definition sample_newTabPage : Page :=
  mkPage "" "New tab" [] "about:newtab" (-1) TextGemini ModeOff "".

Definition sample_makeNewTab : tab :=
  mkTab (mkPage "" "" [] "" 0 TextGemini ModeOff "") (mkHistory [] 0) tabModeDone "" "".

Definition sample_KeyToNum (r : Z) : option Z :=
  let i := strings_Index "!@#$%^&*()" (string_of_rune r) in
  if i <? 0 then None else if i =? 9 then Some 0 else Some (i + 1).

(** Two tabs, the second (rightmost) one current; [links] are the links of
    its page at [u], [typed] is the text of the bottom bar. *)
Definition two_tabs (u : string) (links : list string) (typed : string) : display :=
  mkDisplay [0%nat; 1%nat] 1
            [sample_tab "gemini://example.org/" []; sample_tab u links]
            (mkInputField "" typed) (OnView 1%nat) 80 24 [].

(** One tab only. *)
Definition one_tab (u : string) : display :=
  mkDisplay [0%nat] 0 [sample_tab u []] (mkInputField "" "") (OnView 0%nat) 80 24 [].

(** * Properties *)

Ltac mred :=
  cbv beta iota zeta delta
    [bind gets modify emit ret lift panic tab_at load store NumTabs cur_tab
     saveScroll saveBottomBar applyBottomBar applyAll addToHistory setPage
     SetLabel SetText SetFocus Stop
     set_tabs set_curTab set_heap set_bottomBar set_focus set_term set_log
     tabs curTab heap bottomBar focus termW termH log label text].

Ltac mredb := mred; cbv beta iota delta [negb andb orb]; mred.


Lemma index_Some {A} (l : list A) (i : Z) :
  0 <= i < Z.of_nat (length l) -> exists x, index l i = Some x.
Proof.
  intros Hi. unfold index.
  destruct (Z.ltb_spec i 0) as [|_]; [lia|].
  destruct (lookup_lt_is_Some_2 l (Z.to_nat i)) as [x Hx]; [lia|]. eauto.
Qed.

Lemma index_elem {A} (l : list A) (i : Z) (x : A) :
  index l i = Some x -> x ∈ l /\ 0 <= i < Z.of_nat (length l).
Proof.
  unfold index. destruct (Z.ltb_spec i 0) as [|Hi]; [discriminate|].
  intros H. split; [eapply list_elem_of_lookup_2; eauto|].
  apply lookup_lt_Some in H. lia.
Qed.

Lemma valid_ptrs_load (d : display) (p : ptr) :
  valid_ptrs d = true -> p ∈ tabs d -> exists tb, heap d !! p = Some tb.
Proof.
  unfold valid_ptrs. rewrite forallb_forall. intros H Hp.
  apply list_elem_of_In in Hp. apply H in Hp. apply Nat.ltb_lt in Hp.
  destruct (lookup_lt_is_Some_2 (heap d) p Hp) as [x Hx]. eauto.
Qed.

Lemma session_cur (d : display) :
  session d ->
  exists p tb, index (tabs d) (curTab d) = Some p /\ heap d !! p = Some tb.
Proof.
  intros [Hp Hc]. unfold valid_cur in Hc.
  apply andb_true_iff in Hc as [Hc1 Hc2].
  apply Z.leb_le in Hc1. apply Z.ltb_lt in Hc2.
  destruct (index_Some (tabs d) (curTab d)) as [p Hidx]; [lia|].
  destruct (index_elem _ _ _ Hidx) as [Hin _].
  destruct (valid_ptrs_load d p Hp Hin) as [tb Htb]. eauto.
Qed.

Lemma clamp_eq (n N : Z) :
  (if N - 1 <? (if n <? 0 then 0 else n) then N - 1 else if n <? 0 then 0 else n)
  = Z.min (Z.max n 0) (N - 1).
Proof.
  destruct (Z.ltb_spec n 0); destruct (Z.ltb_spec (N - 1) 0);
    try destruct (Z.ltb_spec (N - 1) n); lia.
Qed.

Lemma lookup_insert_some {A} (l : list A) (i j : nat) (x y : A) :
  l !! j = Some y -> exists y', <[i := x]> l !! j = Some y'.
Proof.
  intros H. rewrite list_lookup_insert. case_decide; eauto.
Qed.

(** ** Switching tabs *)

(** C4: for every integer [n] and every session with at least one tab,
    [SwitchTab n] does not panic; it clamps [n] into [[0, tabCount-1]],
    reduces it modulo [tabCount], and the current tab index it leaves is a
    valid index of the (unchanged) tab slice.  Being stated for every [n],
    this covers [SwitchTab(curTab-1)], [SwitchTab(curTab+1)],
    [SwitchTab((curTab-1+n) % n)] and [SwitchTab(n+5)]. *)
Theorem SwitchTab_lands_on_valid_tab (n : Z) (d : display) :
  session d ->
  let N := Z.of_nat (length (tabs d)) in
  exists d',
    SwitchTab n d = Done tt d'
    /\ tabs d' = tabs d
    /\ curTab d' = Z.rem (Z.min (Z.max n 0) (N - 1)) N
    /\ 0 <= curTab d' <= N - 1.
Proof.
  intros Hs N. destruct (session_cur d Hs) as (p & tb & Hidx & Htb).
  destruct Hs as [Hp Hc].
  unfold valid_cur in Hc. apply andb_true_iff in Hc as [Hc1 Hc2].
  apply Z.leb_le in Hc1. apply Z.ltb_lt in Hc2. fold N in Hc2.
  set (m := Z.min (Z.max n 0) (N - 1)).
  assert (Hm : 0 <= m <= N - 1) by (unfold m; lia).
  assert (Hrem : Z.rem m N = m) by (apply Z.rem_small; lia).
  destruct (index_Some (tabs d) m) as [q Hq]; [fold N; lia|].
  destruct (index_elem _ _ _ Hq) as [Hqin _].
  destruct (valid_ptrs_load d q Hp Hqin) as [tq Htq].
  destruct d as [ts c h [bl bt] f w hh lg]; simpl in *.
  destruct (lookup_insert_some h p q (set_bar bl bt tb) tq Htq) as [tq' Htq'].
  unfold SwitchTab. mred. rewrite clamp_eq. fold N. fold m.
  destruct (Z.ltb_spec (-1) c); [|lia].
  rewrite Hidx. mred. rewrite Htb. mred.
  destruct (Z.eqb_spec N 0); [lia|]. mred.
  rewrite Hrem, Hq. mred. rewrite Htq'. mred.
  eexists. split; [reflexivity|]. simpl. repeat split; lia.
Qed.

Lemma SwitchTab_lands_on_valid_tab_witness :
  session (two_tabs "gemini://example.org/a" [] "")
  /\ exists d',
      SwitchTab 7 (two_tabs "gemini://example.org/a" [] "") = Done tt d'
      /\ tabs d' = [0%nat; 1%nat]
      /\ curTab d' = Z.rem (Z.min (Z.max 7 0) (2 - 1)) 2
      /\ 0 <= curTab d' <= 2 - 1.
Proof.
  assert (H : session (two_tabs "gemini://example.org/a" [] ""))
    by (split; reflexivity).
  split; [exact H|].
  exact (SwitchTab_lands_on_valid_tab 7 (two_tabs "gemini://example.org/a" [] "") H).
Defined.

(** ** Closing tabs *)

(** C5: [CloseTab] changes nothing when the current tab is not the rightmost
    one; when the current tab is the only tab it stops the application;
    otherwise it removes the rightmost tab, moves [curTab] one to the left
    (which is [curTab - 1] clamped at [0], and the new rightmost tab) and
    restores the saved UI state of that tab. *)
Theorem CloseTab_rightmost_only (d : display) :
  let N := Z.of_nat (length (tabs d)) in
  (curTab d <> N - 1 -> CloseTab d = Done tt d)
  /\ (curTab d = N - 1 -> N <= 1 ->
      CloseTab d = Done tt (set_log (log d ++ [AppStop]) d))
  /\ (curTab d = N - 1 -> 2 <= N -> valid_ptrs d = true ->
      exists q tq,
        index (tabs d) (N - 2) = Some q /\ heap d !! q = Some tq
        /\ curTab d - 1 = Z.max (curTab d - 1) 0
        /\ curTab d - 1 = Z.of_nat (length (take (length (tabs d) - 1) (tabs d))) - 1
        /\ CloseTab d =
             Done tt (mkDisplay (take (length (tabs d) - 1) (tabs d)) (curTab d - 1)
                        (heap d) (mkInputField (barLabel tq) (barText tq))
                        (OnView q) (termW d) (termH d)
                        (log d ++ [RemoveTabPage (curTab d); SwitchToPage (curTab d - 1);
                                   RewriteTabRow; RestoreView q; AppDraw]))).
Proof.
  intros N. destruct d as [ts c h [bl bt] f w hh lg]; simpl in *.
  repeat split.
  - intros Hc. unfold CloseTab. mredb. fold N.
    destruct (Z.eqb_spec c (N - 1)); [lia|]. reflexivity.
  - intros Hc HN. unfold CloseTab. mredb. fold N.
    destruct (Z.eqb_spec c (N - 1)); [|lia]. simpl.
    destruct (Z.leb_spec N 1); [|lia]. reflexivity.
  - intros Hc HN Hp.
    destruct (index_Some ts (N - 2)) as [q Hq]; [lia|].
    destruct (index_elem _ _ _ Hq) as [Hqin _].
    destruct (valid_ptrs_load _ q Hp Hqin) as [tq Htq]. simpl in Htq.
    exists q, tq.
    assert (Hlen : Z.of_nat (length (take (length ts - 1) ts)) = N - 1).
    { rewrite length_take. unfold N. lia. }
    assert (Hq' : index (take (length ts - 1) ts) (c - 1) = Some q).
    { unfold index in *. destruct (Z.ltb_spec (c - 1) 0); [lia|].
      destruct (Z.ltb_spec (N - 2) 0); [lia|].
      rewrite lookup_take. case_decide; [|unfold N in *; lia].
      replace (c - 1) with (N - 2) by lia. exact Hq. }
    repeat split; try assumption; try lia.
    unfold CloseTab. mredb. fold N.
    destruct (Z.eqb_spec c (N - 1)); [|lia]. mredb. fold N.
    destruct (Z.leb_spec N 1); [lia|]. mredb.
    destruct (Z.leb_spec c 0); [lia|]. mredb.
    rewrite Hq'. mredb. rewrite Htq. mredb.
    repeat rewrite <- app_assoc. reflexivity.
Qed.

Lemma CloseTab_rightmost_only_witness :
  CloseTab (set_curTab 0 (two_tabs "gemini://example.org/a" [] ""))
  = Done tt (set_curTab 0 (two_tabs "gemini://example.org/a" [] ""))
  /\ CloseTab (one_tab "gemini://example.org/a")
     = Done tt (set_log [AppStop] (one_tab "gemini://example.org/a"))
  /\ exists d',
      CloseTab (two_tabs "gemini://example.org/a" [] "") = Done tt d'
      /\ tabs d' = [0%nat] /\ curTab d' = 0
      /\ bottomBar d' = mkInputField "" "gemini://example.org/".
Proof.
  split; [|split].
  - apply (CloseTab_rightmost_only (set_curTab 0 (two_tabs "gemini://example.org/a" [] ""))).
    simpl. lia.
  - apply (CloseTab_rightmost_only (one_tab "gemini://example.org/a")); simpl; lia.
  - destruct (CloseTab_rightmost_only (two_tabs "gemini://example.org/a" [] ""))
      as (_ & _ & H).
    destruct H as (q & tq & Hq & Htq & _ & _ & Hrun);
      [reflexivity | simpl; lia | reflexivity |].
    injection Hq as <-. injection Htq as <-.
    eexists. split; [exact Hrun|]. repeat split.
Defined.

(** ** Reloading *)

Section Reloading.

Variable hasContent : tab -> bool.
Variable handleURL : tab -> string -> tab.



End Reloading.


